(** * AWR HTML to Excel converter: range resolution, type inference,
      sheet writing and chart-series construction

    Shallow embedding of [AwrONE_html_to_excel.py] (class
    [AWRHtmlToExcelConverter]).  Text is modelled as [string], i.e. as a
    sequence of code points below 256; the workbook sink (xlsxwriter) is
    modelled by the sequence of calls the converter makes on it. *)

From Stdlib Require Import ZArith NArith String Ascii List Bool Lia.
From Stdlib Require Import DecimalString.
From stdpp Require Import base option list gmap strings.

Import ListNotations.
#[local] Arguments String.append _ _ : simpl nomatch.
Local Open Scope string_scope.
Local Open Scope list_scope.
Local Open Scope Z_scope.

(** ** Python text primitives used by the converter *)

Module Py.

Definition code (c : ascii) : N := N_of_ascii c.

Definition in_range (lo hi : N) (c : ascii) : bool :=
  ((lo <=? code c) && (code c <=? hi))%N.

Definition is_digit (c : ascii) : bool := in_range 48 57 c.

(** [str.isspace] on code points below 256: the characters removed by
    [str.strip()] with no argument. *)
Definition isspace (c : ascii) : bool :=
  in_range 9 13 c || in_range 28 32 c
  || (code c =? 133)%N || (code c =? 160)%N.

(** Whitespace skipped around a numeral by [int()] and [float()]:
    C-level whitespace, plus the non-ASCII spaces that the conversion
    folds to a blank first. *)
Definition is_num_space (c : ascii) : bool :=
  in_range 9 13 c || (code c =? 32)%N
  || (code c =? 133)%N || (code c =? 160)%N.

Definition mem_char (c : ascii) (chars : string) : bool :=
  existsb (Ascii.eqb c) (list_ascii_of_string chars).

Fixpoint lstrip_with (p : ascii -> bool) (s : string) : string :=
  match s with
  | String c s' => if p c then lstrip_with p s' else s
  | EmptyString => EmptyString
  end.

Fixpoint rstrip_with (p : ascii -> bool) (s : string) : string :=
  match s with
  | String c s' =>
      match rstrip_with p s' with
      | EmptyString => if p c then EmptyString else String c EmptyString
      | r => String c r
      end
  | EmptyString => EmptyString
  end.

Definition strip_with (p : ascii -> bool) (s : string) : string :=
  rstrip_with p (lstrip_with p s).

(** [s.strip()] *)
Definition strip (s : string) : string := strip_with isspace s.
(** [s.strip(chars)] and [s.rstrip(chars)] *)
Definition strip_chars (chars s : string) : string :=
  strip_with (fun c => mem_char c chars) s.
Definition rstrip_chars (chars s : string) : string :=
  rstrip_with (fun c => mem_char c chars) s.

(** Splitting at every character satisfying [p]: [s.split(c)] for a
    one-character separator and [re.split('[...]', s)] for a character
    class.  Empty fields are kept; the result is never empty. *)
Fixpoint split_with (p : ascii -> bool) (s : string) : list string :=
  match s with
  | EmptyString => [EmptyString]
  | String c s' =>
      if p c then EmptyString :: split_with p s'
      else match split_with p s' with
           | f :: fs => String c f :: fs
           | [] => [String c EmptyString]
           end
  end.

Definition split (sep : ascii) (s : string) : list string :=
  split_with (Ascii.eqb sep) s.
Definition re_split_class (chars : string) (s : string) : list string :=
  split_with (fun c => mem_char c chars) s.

(** [s.split(sep, 1)] *)
Fixpoint split_once (sep : ascii) (s : string) : list string :=
  match s with
  | EmptyString => [EmptyString]
  | String c s' =>
      if Ascii.eqb sep c then [EmptyString; s']
      else match split_once sep s' with
           | f :: fs => String c f :: fs
           | [] => [String c EmptyString]
           end
  end.

(** [s.replace(c, by)] for a one-character pattern. *)
Fixpoint replace (c : ascii) (by_ : string) (s : string) : string :=
  match s with
  | EmptyString => EmptyString
  | String c' s' =>
      if Ascii.eqb c c' then (by_ ++ replace c by_ s')%string
      else String c' (replace c by_ s')
  end.

(** [sep.join(l)] *)
Fixpoint join (sep : ascii) (l : list string) : string :=
  match l with
  | [] => EmptyString
  | [x] => x
  | x :: l' => (x ++ String sep (join sep l'))%string
  end.

(** Every character of [s] satisfies [p]. *)
Fixpoint all_chars (p : ascii -> bool) (s : string) : bool :=
  match s with
  | EmptyString => true
  | String c s' => p c && all_chars p s'
  end.

(** [s[:n]] *)
Fixpoint slice_to (n : nat) (s : string) : string :=
  match n, s with
  | S n', String c s' => String c (slice_to n' s')
  | _, _ => EmptyString
  end.

Fixpoint startswith (pre s : string) : bool :=
  match pre, s with
  | EmptyString, _ => true
  | String a pre', String b s' => Ascii.eqb a b && startswith pre' s'
  | String _ _, EmptyString => false
  end.

Fixpoint endswith (suf s : string) : bool :=
  match s with
  | EmptyString => String.eqb suf EmptyString
  | String _ s' => String.eqb suf s || endswith suf s'
  end.

(** [c.lower()] on code points below 256. *)
Definition lower_char (c : ascii) : ascii :=
  if in_range 65 90 c || in_range 192 214 c || in_range 216 222 c
  then ascii_of_N (code c + 32) else c.

Fixpoint lower (s : string) : string :=
  match s with
  | EmptyString => EmptyString
  | String c s' => String (lower_char c) (lower s')
  end.

(** [str(n)] for an integer. *)
Definition str (n : Z) : string :=
  NilEmpty.string_of_int (Z.to_int n).

(** *** [int(s)]

    Optional surrounding whitespace, an optional sign, then decimal
    digits in which single underscores may separate digits.  CPython
    refuses numerals of more than 4300 digits with [ValueError]. *)
Definition INT_MAX_STR_DIGITS : nat := 4300.

Definition digit_value (c : ascii) : Z := Z.of_N (code c) - 48.

Definition is_underscore (c : ascii) : bool := Ascii.eqb c "_".

Fixpoint scan_digits (after_digit : bool) (acc : Z) (count : nat)
         (s : string) : option (Z * nat) :=
  match s with
  | EmptyString => if after_digit then Some (acc, count) else None
  | String c s' =>
      if is_digit c then
        scan_digits true (10 * acc + digit_value c) (S count) s'
      else if is_underscore c && after_digit then
        scan_digits false acc count s'
      else None
  end.

Definition int_unsigned (s : string) : option Z :=
  match scan_digits false 0 0%nat s with
  | Some (v, count) =>
      if (count <=? INT_MAX_STR_DIGITS)%nat then Some v else None
  | None => None
  end.

Definition int (s : string) : option Z :=
  match strip_with is_num_space s with
  | String c s' =>
      if Ascii.eqb c "+" then int_unsigned s'
      else if Ascii.eqb c "-" then Z.opp <$> int_unsigned s'
      else int_unsigned (String c s')
  | EmptyString => None
  end.

(** *** [float(s)]: which texts parse

    Underscores must sit between two digits; once they are removed the
    text is, after surrounding whitespace, an optional sign followed by
    [inf], [infinity] or [nan] in any letter case, or by a decimal
    numeral with an optional exponent. *)
Fixpoint underscores_ok (prev : option ascii) (s : string) : bool :=
  match s with
  | EmptyString =>
      match prev with Some p => negb (is_underscore p) | None => true end
  | String c s' =>
      (if is_underscore c
       then match prev with Some p => is_digit p | None => false end
       else match prev with
            | Some p => if is_underscore p then is_digit c else true
            | None => true
            end)
      && underscores_ok (Some c) s'
  end.

Definition remove_underscores (s : string) : string :=
  replace "_" "" s.

Fixpoint skip_digits (s : string) : nat * string :=
  match s with
  | String c s' =>
      if is_digit c then let '(n, r) := skip_digits s' in (S n, r)
      else (0%nat, s)
  | EmptyString => (0%nat, EmptyString)
  end.

Definition skip_sign (s : string) : string :=
  match s with
  | String c s' => if Ascii.eqb c "+" || Ascii.eqb c "-" then s' else s
  | EmptyString => s
  end.

(** The exponent part is consumed only when it has at least one digit;
    otherwise the scan stops in front of the [e]. *)
Definition skip_exponent (s : string) : string :=
  match s with
  | String c s' =>
      if Ascii.eqb c "e" || Ascii.eqb c "E" then
        let '(n, r) := skip_digits (skip_sign s') in
        if (0 <? n)%nat then r else s
      else s
  | EmptyString => s
  end.

(** What is left of [s] after the longest decimal numeral at its start;
    [None] when there is no numeral. *)
Definition skip_decimal (s : string) : option string :=
  let '(n1, r1) := skip_digits (skip_sign s) in
  let '(n2, r2) :=
    match r1 with
    | String c r => if Ascii.eqb c "." then skip_digits r else (0%nat, r1)
    | EmptyString => (0%nat, r1)
    end in
  if (0 <? n1 + n2)%nat then Some (skip_exponent r2) else None.

Definition skip_inf_or_nan (s : string) : option string :=
  let t := skip_sign s in
  if startswith "inf" (lower (slice_to 3 t)) then
    let t3 := match t with
              | String _ (String _ (String _ r)) => r
              | _ => EmptyString
              end in
    if startswith "inity" (lower (slice_to 5 t3)) then
      match t3 with
      | String _ (String _ (String _ (String _ (String _ r)))) => Some r
      | _ => None
      end
    else Some t3
  else if startswith "nan" (lower (slice_to 3 t)) then
    match t with
    | String _ (String _ (String _ r)) => Some r
    | _ => None
    end
  else None.

Definition float_parses (s : string) : bool :=
  underscores_ok None s &&
  let t := strip_with is_num_space (remove_underscores s) in
  match skip_decimal t with
  | Some r => String.eqb r EmptyString
  | None =>
      match skip_inf_or_nan t with
      | Some r => String.eqb r EmptyString
      | None => false
      end
  end.

End Py.


(** ** Constants *)

Module Constants.
Definition MAX_EXCEL_ROWS : Z := 65535.
Definition CHART_TYPE_LINE : string := "LINE".
Definition CHART_TYPE_BAR : string := "BAR".
Definition DATE_FORMAT_SHORT : string := "yyyy/mm/dd".
Definition DATE_FORMAT_LONG : string := "yyyy/mm/dd hh:mm".
End Constants.

(** ** Configuration rules *)

(** One entry of [ini_format_config[sheet]]: the list
    [[r1, c1, r2, c2, format_str]]. *)
Record format_config := FormatConfig {
  fc_r1 : Z; fc_c1 : Z; fc_r2 : Z; fc_c2 : Z; fc_format : string
}.

(** One entry of [ini_chart_config[sheet]]: the tuple [(range_str,
    chart_title, position_row, position_col, chart_type, x_axis_format,
    x_axis_title)]. *)
Record chart_config := ChartConfig {
  cc_range_str : string;
  cc_title : string;
  cc_position_row : Z;
  cc_position_col : Z;
  cc_chart_type : string;
  cc_x_axis_format : string;
  cc_x_axis_title : string
}.

(** [row1, col1, row2, col2 = map(int, parts)]: a [ValueError] of any
    of the four conversions leaves the sub-range without coordinates. *)
Definition int_quad (parts : list string) : option (Z * Z * Z * Z) :=
  match parts with
  | [p1; p2; p3; p4] =>
      r1 ← Py.int p1; c1 ← Py.int p2; r2 ← Py.int p3; c2 ← Py.int p4;
      Some (r1, c1, r2, c2)
  | _ => None
  end.

(** Body of the loop of [_parse_excel_cell_range] for one sub-range. *)
Definition parse_range_part (range_part format_str : string)
  : list format_config :=
  let range_part := Py.strip range_part in
  let parts := Py.re_split_class ".:" range_part in
  if (length parts =? 4)%nat then
    match int_quad parts with
    | Some (row1, col1, row2, col2) =>
        [FormatConfig row1 col1 row2 col2 format_str]
    | None => []
    end
  else [].

Definition parse_excel_cell_range (range_str format_str : string)
  : list format_config :=
  let ranges := Py.split "/" range_str in
  foldl (fun result range_part =>
           result ++ parse_range_part range_part format_str) [] ranges.

Definition sheet_rules {A} (config : gmap string (list A)) (sheet : string)
  : list A := default [] (config !! sheet).

(** [_parse_format_configuration]: the new value of
    [ini_format_config]. *)
Definition parse_format_configuration (line : string)
    (ini_format_config : gmap string (list format_config))
  : gmap string (list format_config) :=
  let parts := Py.re_split_class "=^" line in
  match parts with
  | _format_id :: sheet_name :: range_str :: number_format :: _ =>
      let range_str :=
        Py.replace "E" (Py.str Constants.MAX_EXCEL_ROWS)
                   (Py.strip_chars "[]" range_str) in
      let cell_ranges := parse_excel_cell_range range_str number_format in
      <[sheet_name :=
          sheet_rules ini_format_config sheet_name ++ cell_ranges]>
        ini_format_config
  | _ => ini_format_config
  end.

(** [parts[i] if len(parts) > i else d] *)
Definition item_or (parts : list string) (i : nat) (d : string) : string :=
  if (i <? length parts)%nat then default d (parts !! i) else d.

(** The tuple built by [_parse_chart_configuration] together with its
    sheet name; [None] when the line is ignored or an [IndexError] or
    [ValueError] is caught. *)
Definition chart_directive (line : string) : option (string * chart_config) :=
  after_eq ← Py.split_once "=" line !! 1%nat;
  let parts := Py.split "," after_eq in
  if (8 <=? length parts)%nat then
    sheet_name ← parts !! 0%nat;
    range_str ← Py.strip_chars "[]" <$> parts !! 1%nat;
    let chart_title := item_or parts 4 "" in
    position_row ←
      (if (5 <? length parts)%nat then parts !! 5%nat ≫= Py.int
       else Some 2);
    position_col ←
      (if (6 <? length parts)%nat then parts !! 6%nat ≫= Py.int
       else Some 2);
    let chart_type := item_or parts 7 Constants.CHART_TYPE_LINE in
    let x_axis_format := item_or parts 9 "" in
    let x_axis_title := item_or parts 10 "" in
    Some (sheet_name,
          ChartConfig range_str chart_title position_row position_col
                      chart_type x_axis_format x_axis_title)
  else None.

Definition parse_chart_configuration (line : string)
    (ini_chart_config : gmap string (list chart_config))
  : gmap string (list chart_config) :=
  match chart_directive line with
  | Some (sheet_name, chart_config) =>
      <[sheet_name :=
          sheet_rules ini_chart_config sheet_name ++ [chart_config]]>
        ini_chart_config
  | None => ini_chart_config
  end.





(** ** Type inference *)

(** The value [float(text)] of a text that parses, kept as the numeral
    it is read from. *)
Inductive pyfloat := FloatOf (numeral : string).

Definition is_numeric_string (text : string) : bool :=
  if String.eqb text "" then false
  else
    let clean_text := Py.replace "," "" text in
    Py.float_parses clean_text.

(** *** A matcher for the regular expressions the converter relies on

    A pattern is a sequence of literal characters and of capturing
    groups; a group is an ordered list of alternatives, each a sequence
    of character ranges.  Matching is anchored at the start of the text,
    tries the alternatives in order and backtracks, as [re.match] does;
    it returns the captured groups and the unmatched rest. *)
Module Re.

Inductive item :=
| Lit (ignore_case : bool) (c : ascii)
| Group (alts : list (list (ascii * ascii))).

Definition in_class (cl : ascii * ascii) (c : ascii) : bool :=
  Py.in_range (Py.code cl.1) (Py.code cl.2) c.

Fixpoint match_classes (cls : list (ascii * ascii)) (s : string)
  : option (string * string) :=
  match cls with
  | [] => Some (EmptyString, s)
  | cl :: cls' =>
      match s with
      | String c s' =>
          if in_class cl c then
            '(cap, rest) ← match_classes cls' s';
            Some (String c cap, rest)
          else None
      | EmptyString => None
      end
  end.

Fixpoint try_alts {A} (alts : list (list (ascii * ascii))) (s : string)
         (k : string -> string -> option A) : option A :=
  match alts with
  | [] => None
  | alt :: alts' =>
      match match_classes alt s ≫= (fun '(cap, rest) => k cap rest) with
      | Some r => Some r
      | None => try_alts alts' s k
      end
  end.

Definition lit_matches (ignore_case : bool) (c c' : ascii) : bool :=
  if ignore_case
  then Ascii.eqb (Py.lower_char c) (Py.lower_char c')
  else Ascii.eqb c c'.

Fixpoint match_ (items : list item) (s : string)
  : option (list string * string) :=
  match items with
  | [] => Some ([], s)
  | Lit ic c :: items' =>
      match s with
      | String c' s' =>
          if lit_matches ic c c' then match_ items' s' else None
      | EmptyString => None
      end
  | Group alts :: items' =>
      try_alts alts s (fun cap rest =>
        '(caps, rest') ← match_ items' rest;
        Some (cap :: caps, rest'))
  end.

Definition d : ascii * ascii := ("0"%char, "9"%char).
Definition r (lo hi : ascii) : ascii * ascii := (lo, hi).
Definition ch (c : ascii) : ascii * ascii := (c, c).

End Re.

(** The pattern [^\d{4}-\d{2}-\d{2}] of [_is_date_string]. *)
Definition date_pattern : list Re.item :=
  [Re.Group [[Re.d; Re.d; Re.d; Re.d]]; Re.Lit false "-";
   Re.Group [[Re.d; Re.d]]; Re.Lit false "-"; Re.Group [[Re.d; Re.d]]].

Definition is_date_string (text : string) : bool :=
  if String.eqb text "" || (String.length text <? 10)%nat then false
  else bool_decide (is_Some (Re.match_ date_pattern text)).

Definition convert_date_to_excel_format (date_str : string) : string :=
  Py.replace " " "T" date_str.

(** *** [datetime.strptime]

    The two formats the converter uses, as the regular expressions the
    library compiles them to (letters compared without case), followed
    by the range checks of the [datetime] constructor. *)
Record datetime := DateTime {
  dt_year : Z; dt_month : Z; dt_day : Z;
  dt_hour : Z; dt_minute : Z; dt_second : Z
}.

Module Strptime.
Import Re.

Definition Y := Group [[d; d; d; d]].
Definition m := Group [[ch "1"; r "0" "2"]; [ch "0"; r "1" "9"]; [r "1" "9"]].
Definition d_ :=
  Group [[ch "3"; r "0" "1"]; [r "1" "2"; d]; [ch "0"; r "1" "9"];
         [r "1" "9"]; [ch " "; r "1" "9"]].
Definition H := Group [[ch "2"; r "0" "3"]; [r "0" "1"; d]; [d]].
Definition M := Group [[r "0" "5"; d]; [d]].
Definition S_ := Group [[ch "6"; r "0" "1"]; [r "0" "5"; d]; [d]].

(** [Constants.EXCEL_DATE_SHORT_FORMAT], i.e. [%Y-%m-%d] *)
Definition EXCEL_DATE_SHORT_FORMAT : list item :=
  [Y; Lit true "-"; m; Lit true "-"; d_].
(** [Constants.EXCEL_DATE_FORMAT], i.e. [%Y-%m-%dT%H:%M:%S] *)
Definition EXCEL_DATE_FORMAT : list item :=
  [Y; Lit true "-"; m; Lit true "-"; d_; Lit true "T";
   H; Lit true ":"; M; Lit true ":"; S_].

Definition is_leap (y : Z) : bool :=
  (y mod 4 =? 0) && (negb (y mod 100 =? 0) || (y mod 400 =? 0)).

Definition days_in_month (y mo : Z) : Z :=
  if mo =? 2 then (if is_leap y then 29 else 28)
  else if (mo =? 4) || (mo =? 6) || (mo =? 9) || (mo =? 11) then 30
  else 31.

Definition make_datetime (y mo dd h mi sec : Z) : option datetime :=
  if (1 <=? y) && (y <=? 9999) && (1 <=? mo) && (mo <=? 12)
     && (1 <=? dd) && (dd <=? days_in_month y mo)
     && (0 <=? h) && (h <=? 23) && (0 <=? mi) && (mi <=? 59)
     && (0 <=? sec) && (sec <=? 59)
  then Some (DateTime y mo dd h mi sec) else None.

(** [None] stands for the [ValueError] of a text that does not match,
    leaves unconverted data, or names no valid date. *)
Definition strptime (data_string : string) (format : list item)
  : option datetime :=
  '(found, rest) ← match_ format data_string;
  if negb (String.eqb rest "") then None
  else
    fields ← mapM Py.int found;
    match fields with
    | [y; mo; dd] => make_datetime y mo dd 0 0 0
    | [y; mo; dd; h; mi; sec] => make_datetime y mo dd h mi sec
    | _ => None
    end.

End Strptime.


(** ** The workbook sink

    The worksheet and chart objects belong to the spreadsheet library;
    they are represented by the calls the converter makes on them, which
    are taken to succeed. *)

(** Format objects: the four defaults of
    [_define_default_excel_formats] and the objects kept in
    [excel_format_cache], one per INI format string. *)
Inductive format_obj :=
| number_format
| string_format
| date_format
| datetime_format
| cached_format (format_str : string).

(** The properties each format object is created with:
    [num_format] (when given) and [align]. *)
Definition format_properties (f : format_obj) : option string * string :=
  match f with
  | number_format => (Some "###,##0", "right")
  | string_format => (None, "left")
  | date_format => (Some Constants.DATE_FORMAT_SHORT, "left")
  | datetime_format => (Some Constants.DATE_FORMAT_LONG, "left")
  | cached_format format_str => (Some format_str, "right")
  end.

(** A range of cells in list form: [[sheet, r1, c1, r2, c2]], zero-based. *)
Record cell_range := CellRange {
  cr_sheet : string; cr_r1 : Z; cr_c1 : Z; cr_r2 : Z; cr_c2 : Z
}.

(** The [name] of a series: a text (the empty text when the series has
    no name) or the cell [[sheet, row, col]] that holds it. *)
Inductive series_name :=
| NameText (text : string)
| NameCell (sheet : string) (row col : Z).

Record series_config := SeriesConfig {
  sc_name : series_name;
  sc_values : cell_range;
  sc_categories : option cell_range
}.

Record x_axis_config := XAxisConfig {
  xa_name : option string;
  xa_num_format : option string
}.

Record chart := Chart {
  ch_type : string;
  ch_embedded : bool;
  ch_series : list series_config;
  ch_title : option string;
  ch_x_axis : option x_axis_config;
  ch_legend_position : option string;
  ch_chartarea_border_none : bool
}.

Inductive ws_call :=
| write_string (row col : nat) (text : string) (f : format_obj)
| write_number (row col : nat) (number : pyfloat) (f : format_obj)
| write_datetime (row col : nat) (dt : datetime) (f : format_obj)
| insert_chart (row col : Z) (c : chart).

(** ** Sheet writer *)



Definition in_rectangle (fc : format_config) (row_1based col_1based : Z)
  : bool :=
  (fc_r1 fc <=? row_1based) && (row_1based <=? fc_r2 fc)
  && (fc_c1 fc <=? col_1based) && (col_1based <=? fc_c2 fc).

(** The [for] loop of [_check_cell_has_custom_format]. *)
Fixpoint first_covering_rule (rules : list format_config)
         (row_1based col_1based : Z) : bool * string :=
  match rules with
  | [] => (false, "")
  | format_config :: rules' =>
      if in_rectangle format_config row_1based col_1based
      then (true, fc_format format_config)
      else first_covering_rule rules' row_1based col_1based
  end.

Definition check_cell_has_custom_format
    (current_sheet_name : string)
    (ini_format_config : gmap string (list format_config))
    (row col : nat) : bool * string :=
  match ini_format_config !! current_sheet_name with
  | None => (false, "")
  | Some rules =>
      let row_1based := Z.of_nat row + 1 in
      let col_1based := Z.of_nat col + 1 in
      first_covering_rule rules row_1based col_1based
  end.

Definition has_time (date_str : string) : bool :=
  (10 <? String.length date_str)%nat
  && negb (Py.endswith " 00:00:00" date_str).

Definition write_date_value (row col : nat) (date_str : string) : ws_call :=
  let excel_date_str := convert_date_to_excel_format date_str in
  if has_time date_str then
    match Strptime.strptime (Py.slice_to 19 excel_date_str)
                            Strptime.EXCEL_DATE_FORMAT with
    | Some dt_obj => write_datetime row col dt_obj datetime_format
    | None => write_string row col date_str string_format
    end
  else
    match Strptime.strptime (Py.slice_to 10 excel_date_str)
                            Strptime.EXCEL_DATE_SHORT_FORMAT with
    | Some dt_obj => write_datetime row col dt_obj date_format
    | None => write_string row col date_str string_format
    end.

(** [float(value.replace(',', ''))] *)
Definition to_number (value : string) : pyfloat :=
  FloatOf (Py.replace "," "" value).

(** The type tests of [_write_cell_value], recorded in the order in
    which they are evaluated. *)
Inductive type_test := NumericTest | DateTest.

(** [guard and test(value)]: the test is evaluated only when the guard
    holds. *)
Definition guarded (guard : bool) (t : type_test) (result : bool)
  : list type_test * bool :=
  if guard then ([t], result) else ([], false).

(** [_write_cell_value]: the type tests evaluated, in order, and the
    call made on the worksheet. *)
Definition write_cell_value_traced (row col : nat) (value : string)
    (has_custom_format : bool) (custom_format_key : string)
    (excel_format_cache : gmap string format_obj)
  : list type_test * ws_call :=
  if String.eqb value "" then ([], write_string row col "" string_format)
  else
    (* [has_custom_format and custom_format_key in self.excel_format_cache] *)
    let custom :=
      if has_custom_format
      then excel_format_cache !! custom_format_key else None in
    let '(t1, numeric) :=
      guarded (bool_decide (is_Some custom)) NumericTest
              (is_numeric_string value) in
    match custom, numeric with
    | Some custom_format, true =>
        (t1, write_number row col (to_number value) custom_format)
    | _, _ =>
        let '(t2, date) :=
          guarded (col =? 0)%nat DateTest (is_date_string value) in
        if date then (t1 ++ t2, write_date_value row col value)
        else
          let '(t3, numeric) :=
            guarded (0 <? col)%nat NumericTest (is_numeric_string value) in
          if numeric then
            (t1 ++ t2 ++ t3,
             write_number row col (to_number value)
                          (default number_format custom))
          else
            (t1 ++ t2 ++ t3, write_string row col value string_format)
    end.

Definition write_cell_value (row col : nat) (value : string)
    (has_custom_format : bool) (custom_format_key : string)
    (excel_format_cache : gmap string format_obj) : ws_call :=
  (write_cell_value_traced row col value has_custom_format
                           custom_format_key excel_format_cache).2.

(** ** Chart builder *)

(** [range(lo, hi)] *)
Definition py_range (lo hi : Z) : list Z := seqZ lo (hi - lo).

(** [_add_data_series]: the series handed to [chart.add_series], in
    order. *)
Definition add_data_series (current_sheet_name : string)
    (r1 c1 r2 c2 : Z) (categories_range : option (Z * Z * Z * Z))
  : list series_config :=
  (fun col =>
     let '(series_name, values_r1) :=
       if r1 =? 0 then (NameCell current_sheet_name 0 col, 1)
       else (NameText "", r1) in
     SeriesConfig
       series_name
       (CellRange current_sheet_name values_r1 col r2 col)
       (match categories_range with
        | Some (cat_r1, cat_c1, cat_r2, cat_c2) =>
            Some (CellRange current_sheet_name cat_r1 cat_c1 cat_r2 cat_c2)
        | None => None
        end))
  <$> py_range c1 (c2 + 1).

(** The coordinates read from one sub-range by [_add_series_to_chart],
    already moved to zero-based indices; [None] when the loop
    [continue]s. *)
Definition chart_range_part (range_part : string) (num_rows : nat)
  : option (Z * Z * Z * Z) :=
  let range_part := Py.replace "E" (Py.str (Z.of_nat num_rows)) range_part in
  let range_part := Py.rstrip_chars "]" (Py.strip range_part) in
  let parts := Py.re_split_class ".:" range_part in
  if negb (length parts =? 4)%nat then None
  else
    '(r1, c1, r2, c2) ← int_quad parts;
    Some (r1 - 1, c1 - 1, r2 - 1, c2 - 1).

(** The loop of [_add_series_to_chart] from index [idx] on, threading
    [categories_range] and the series of the chart. *)
Fixpoint add_series_loop (current_sheet_name : string) (num_rows : nat)
         (idx : nat) (ranges : list string)
         (categories_range : option (Z * Z * Z * Z))
         (series : list series_config) : list series_config :=
  match ranges with
  | [] => series
  | range_part :: ranges' =>
      match chart_range_part range_part num_rows with
      | None =>
          add_series_loop current_sheet_name num_rows (S idx) ranges'
                          categories_range series
      | Some (r1, c1, r2, c2) =>
          if (idx =? 0)%nat then
            add_series_loop current_sheet_name num_rows (S idx) ranges'
                            (Some (r1, c1, r2, c2)) series
          else
            add_series_loop current_sheet_name num_rows (S idx) ranges'
              categories_range
              (series ++ add_data_series current_sheet_name r1 c1 r2 c2
                                         categories_range)
      end
  end.

Definition with_series (c : chart) (series : list series_config) : chart :=
  Chart (ch_type c) (ch_embedded c) series (ch_title c) (ch_x_axis c)
        (ch_legend_position c) (ch_chartarea_border_none c).

Definition add_series_to_chart (current_sheet_name : string) (c : chart)
    (range_str : string) (num_rows : nat) : chart :=
  let ranges := Py.split "/" range_str in
  with_series c
    (add_series_loop current_sheet_name num_rows 0 ranges None (ch_series c)).





(** ** Writing one table *)







(** ** Vocabulary of the properties *)

(** The tokens a sub-range is cut into: by [_parse_excel_cell_range], and
    by [_add_series_to_chart] for a table of [num_rows] rows. *)
Definition format_tokens (range_part : string) : list string :=
  Py.re_split_class ".:" (Py.strip range_part).

Definition chart_tokens (range_part : string) (num_rows : nat)
  : list string :=
  Py.re_split_class ".:"
    (Py.rstrip_chars "]"
       (Py.strip (Py.replace "E" (Py.str (Z.of_nat num_rows)) range_part))).

(** A sub-range is malformed when it is not cut into exactly four tokens
    or one of its tokens is not an integer. *)
Definition malformed (tokens : list string) : Prop :=
  length tokens <> 4%nat \/ exists t, In t tokens /\ Py.int t = None.

(** The series one sub-range after the first contributes to a chart. *)
Definition series_of_part (sheet : string) (num_rows : nat)
    (categories_range : option (Z * Z * Z * Z)) (range_part : string)
  : list series_config :=
  match chart_range_part range_part num_rows with
  | Some (r1, c1, r2, c2) =>
      add_data_series sheet r1 c1 r2 c2 categories_range
  | None => []
  end.

Definition no_slash (s : string) : Prop :=
  Py.all_chars (fun c => negb (Ascii.eqb "/" c)) s = true.



(** The comma-separated tokens of a CHART directive. *)
Definition chart_fields (line : string) : list string :=
  match Py.split_once "=" line !! 1%nat with
  | Some after_eq => Py.split "," after_eq
  | None => []
  end.

(** * Properties *)

(** ** Text lemmas *)

Section text_lemmas.
Import Py.


Lemma split_with_no_sep p s :
  all_chars (fun c => negb (p c)) s = true -> split_with p s = [s].
Proof.
  induction s as [|c s IH]; simpl; [reflexivity|].
  intros [Hc Hs]%andb_true_iff.
  apply negb_true_iff in Hc. rewrite Hc, (IH Hs). reflexivity.
Qed.

Lemma split_with_app p t s f fs :
  all_chars (fun c => negb (p c)) t = true ->
  split_with p s = f :: fs ->
  split_with p (t ++ s)%string = (t ++ f)%string :: fs.
Proof.
  intros Ht Hs. induction t as [|c t IH]; simpl in *; [exact Hs|].
  apply andb_true_iff in Ht as [Hc Ht].
  apply negb_true_iff in Hc. rewrite Hc, (IH Ht). reflexivity.
Qed.

Lemma append_empty_r t : (t ++ "")%string = t.
Proof. induction t as [|c t IH]; simpl; congruence. Qed.

Lemma split_with_sep p c t s :
  p c = true ->
  all_chars (fun c => negb (p c)) t = true ->
  split_with p (t ++ String c s)%string = t :: split_with p s.
Proof.
  intros Hc Ht.
  rewrite (split_with_app p t (String c s) EmptyString (split_with p s) Ht).
  - f_equal. apply append_empty_r.
  - simpl. rewrite Hc. reflexivity.
Qed.

(** Splitting undoes joining when no field holds the separator. *)
Lemma split_join sep l :
  l <> [] ->
  Forall (fun s => all_chars (fun c => negb (Ascii.eqb sep c)) s = true) l ->
  split sep (join sep l) = l.
Proof.
  intros Hne Hall. unfold split.
  induction Hall as [|x l Hx Hl IH]; [congruence|].
  destruct l as [|y l].
  - simpl. apply split_with_no_sep, Hx.
  - change (join sep (x :: y :: l))
      with (x ++ String sep (join sep (y :: l)))%string.
    rewrite split_with_sep; [|apply Ascii.eqb_refl|exact Hx].
    f_equal. apply IH. discriminate.
Qed.






Lemma is_digit_cases c :
  is_digit c = true ->
  In c ["0"; "1"; "2"; "3"; "4"; "5"; "6"; "7"; "8"; "9"]%char.
Proof.
  destruct c as [[] [] [] [] [] [] [] []]; intros H;
    try discriminate H; simpl; tauto.
Qed.



End text_lemmas.

(** ** Range parsing *)

Section range_lemmas.

Lemma int_quad_Some parts r1 c1 r2 c2 :
  int_quad parts = Some (r1, c1, r2, c2) <->
  exists t1 t2 t3 t4,
    parts = [t1; t2; t3; t4] /\ Py.int t1 = Some r1 /\ Py.int t2 = Some c1
    /\ Py.int t3 = Some r2 /\ Py.int t4 = Some c2.
Proof.
  split.
  - destruct parts as [|t1 [|t2 [|t3 [|t4 [|? ?]]]]]; simpl; try discriminate.
    destruct (Py.int t1) eqn:H1; simpl; [|discriminate].
    destruct (Py.int t2) eqn:H2; simpl; [|discriminate].
    destruct (Py.int t3) eqn:H3; simpl; [|discriminate].
    destruct (Py.int t4) eqn:H4; simpl; [|discriminate].
    intros [= <- <- <- <-]. exists t1, t2, t3, t4. auto.
  - intros (t1 & t2 & t3 & t4 & -> & H1 & H2 & H3 & H4).
    simpl. rewrite H1, H2, H3, H4. reflexivity.
Qed.

Lemma int_quad_None parts :
  malformed parts <->
  (length parts =? 4)%nat = false \/ int_quad parts = None.
Proof.
  unfold malformed. split.
  - intros [Hlen | (t & Hin & Ht)].
    + left. apply Nat.eqb_neq, Hlen.
    + right.
      destruct parts as [|t1 [|t2 [|t3 [|t4 [|? ?]]]]]; simpl; try reflexivity.
      simpl in Hin.
      destruct (Py.int t1) eqn:H1; simpl; [|reflexivity].
      destruct (Py.int t2) eqn:H2; simpl; [|reflexivity].
      destruct (Py.int t3) eqn:H3; simpl; [|reflexivity].
      destruct (Py.int t4) eqn:H4; simpl; [|reflexivity].
      destruct Hin as [<- | [<- | [<- | [<- | []]]]]; congruence.
  - intros [Hlen | Hq].
    + left. apply Nat.eqb_neq, Hlen.
    + destruct parts as [|t1 [|t2 [|t3 [|t4 [|? ?]]]]];
        try (left; simpl; lia).
      right. simpl in Hq.
      destruct (Py.int t1) eqn:H1; [|exists t1; simpl; auto].
      destruct (Py.int t2) eqn:H2; [|exists t2; simpl; auto].
      destruct (Py.int t3) eqn:H3; [|exists t3; simpl; auto].
      destruct (Py.int t4) eqn:H4; [|exists t4; simpl; auto 6].
      discriminate Hq.
Qed.

Lemma parse_range_part_malformed range_part format_str :
  malformed (format_tokens range_part) ->
  parse_range_part range_part format_str = [].
Proof.
  intros H. apply int_quad_None in H. unfold parse_range_part.
  fold (format_tokens range_part).
  destruct H as [-> | H]; [reflexivity|].
  rewrite H. destruct (_ =? _)%nat; reflexivity.
Qed.

Lemma parse_range_part_well_formed range_part format_str t1 t2 t3 t4
      r1 c1 r2 c2 :
  format_tokens range_part = [t1; t2; t3; t4] ->
  Py.int t1 = Some r1 -> Py.int t2 = Some c1 ->
  Py.int t3 = Some r2 -> Py.int t4 = Some c2 ->
  parse_range_part range_part format_str
  = [FormatConfig r1 c1 r2 c2 format_str].
Proof.
  intros Ht H1 H2 H3 H4. unfold parse_range_part.
  fold (format_tokens range_part). rewrite Ht. simpl.
  rewrite H1, H2, H3, H4. reflexivity.
Qed.

Lemma chart_range_part_malformed range_part num_rows :
  malformed (chart_tokens range_part num_rows) <->
  chart_range_part range_part num_rows = None.
Proof.
  rewrite int_quad_None. unfold chart_range_part.
  fold (chart_tokens range_part num_rows).
  destruct (_ =? _)%nat; simpl.
  - destruct (int_quad _) as [[[[? ?] ?] ?]|]; simpl; split;
      (intros [?|?]; congruence) || (try discriminate); auto.
  - split; auto.
Qed.

Lemma chart_range_part_well_formed range_part num_rows t1 t2 t3 t4
      r1 c1 r2 c2 :
  chart_tokens range_part num_rows = [t1; t2; t3; t4] ->
  Py.int t1 = Some r1 -> Py.int t2 = Some c1 ->
  Py.int t3 = Some r2 -> Py.int t4 = Some c2 ->
  chart_range_part range_part num_rows
  = Some (r1 - 1, c1 - 1, r2 - 1, c2 - 1).
Proof.
  intros Ht H1 H2 H3 H4. unfold chart_range_part.
  fold (chart_tokens range_part num_rows). rewrite Ht. simpl.
  rewrite H1, H2, H3, H4. reflexivity.
Qed.

Lemma foldl_append {A B} (f : B -> list A) (l : list B) (acc : list A) :
  foldl (fun result x => result ++ f x) acc l = acc ++ flat_map f l.
Proof.
  revert acc. induction l as [|x l IH]; intros acc; simpl.
  - rewrite app_nil_r. reflexivity.
  - rewrite IH, <- app_assoc. reflexivity.
Qed.

(** The rectangles of a range spec are those of its sub-ranges, each
    read on its own. *)
Lemma parse_excel_cell_range_split range_str format_str :
  parse_excel_cell_range range_str format_str
  = flat_map (fun range_part => parse_range_part range_part format_str)
             (Py.split "/" range_str).
Proof. unfold parse_excel_cell_range. rewrite foldl_append. reflexivity. Qed.

Lemma add_series_loop_later sheet num_rows idx ranges cat series :
  (0 < idx)%nat ->
  add_series_loop sheet num_rows idx ranges cat series
  = series ++ flat_map (series_of_part sheet num_rows cat) ranges.
Proof.
  revert idx series. induction ranges as [|range_part ranges IH];
    intros idx series Hidx; simpl.
  - rewrite app_nil_r. reflexivity.
  - unfold series_of_part at 1.
    destruct (chart_range_part range_part num_rows)
      as [[[[r1 c1] r2] c2]|].
    + destruct idx; [lia|]. simpl.
      rewrite IH by lia. rewrite <- app_assoc. reflexivity.
    + rewrite IH by lia. reflexivity.
Qed.

(** The first sub-range only sets the categories; every later one adds
    its series with them. *)
Lemma add_series_loop_first sheet num_rows first rest series :
  add_series_loop sheet num_rows 0 (first :: rest) None series
  = series ++
    flat_map (series_of_part sheet num_rows
                             (chart_range_part first num_rows)) rest.
Proof.
  simpl.
  destruct (chart_range_part first num_rows) as [[[[r1 c1] r2] c2]|];
    apply add_series_loop_later; lia.
Qed.

Lemma add_series_to_chart_series sheet c range_str num_rows first rest :
  Py.split "/" range_str = first :: rest ->
  ch_series (add_series_to_chart sheet c range_str num_rows)
  = ch_series c ++
    flat_map (series_of_part sheet num_rows
                             (chart_range_part first num_rows)) rest.
Proof.
  intros Hs. unfold add_series_to_chart. rewrite Hs. simpl ch_series.
  apply add_series_loop_first.
Qed.

Lemma length_py_range lo hi : length (py_range lo hi) = Z.to_nat (hi - lo).
Proof. unfold py_range. apply length_seqZ. Qed.

Lemma add_data_series_length sheet r1 c1 r2 c2 cat :
  length (add_data_series sheet r1 c1 r2 c2 cat) = Z.to_nat (c2 - c1 + 1).
Proof.
  unfold add_data_series. rewrite length_fmap, length_py_range.
  f_equal. lia.
Qed.

Lemma add_data_series_lookup sheet r1 c1 r2 c2 cat (k : nat) :
  (k < Z.to_nat (c2 - c1 + 1))%nat ->
  add_data_series sheet r1 c1 r2 c2 cat !! k
  = Some (SeriesConfig
            (if r1 =? 0 then NameCell sheet 0 (c1 + Z.of_nat k)
             else NameText "")
            (CellRange sheet (if r1 =? 0 then 1 else r1)
                       (c1 + Z.of_nat k) r2 (c1 + Z.of_nat k))
            (match cat with
             | Some (a, b, c, d) => Some (CellRange sheet a b c d)
             | None => None
             end)).
Proof.
  intros Hk. unfold add_data_series, py_range.
  rewrite list_lookup_fmap, lookup_seqZ_lt by lia. simpl.
  destruct (r1 =? 0); reflexivity.
Qed.

End range_lemmas.

(** ** Format-rule resolution *)

Section format_rules.

Lemma first_covering_rule_app earlier rules row col :
  Forall (fun r => in_rectangle r row col = false) earlier ->
  first_covering_rule (earlier ++ rules) row col
  = first_covering_rule rules row col.
Proof.
  induction 1 as [|r earlier Hr _ IH]; simpl; [reflexivity|].
  rewrite Hr. exact IH.
Qed.

Lemma first_covering_rule_hit earlier R later row col :
  Forall (fun r => in_rectangle r row col = false) earlier ->
  in_rectangle R row col = true ->
  first_covering_rule (earlier ++ R :: later) row col
  = (true, fc_format R).
Proof.
  intros He HR. rewrite first_covering_rule_app by exact He.
  simpl. rewrite HR. reflexivity.
Qed.

(** A FORMAT directive only appends to the rules of its sheet. *)
Lemma parse_format_configuration_appends line cfg sheet :
  exists added,
    sheet_rules (parse_format_configuration line cfg) sheet
    = sheet_rules cfg sheet ++ added.
Proof.
  unfold parse_format_configuration.
  destruct (Py.re_split_class "=^" line)
    as [|id [|sheet_name [|range_str [|number_format rest]]]];
    try (exists []; rewrite app_nil_r; reflexivity).
  unfold sheet_rules at 1.
  destruct (decide (sheet_name = sheet)) as [->|Hne].
  - rewrite lookup_insert_eq. simpl. eauto.
  - rewrite lookup_insert_ne by exact Hne.
    exists []. rewrite app_nil_r. reflexivity.
Qed.

End format_rules.

(** C4: when several FORMAT rules of a sheet cover a cell, the format
    resolved for the cell is that of the earliest-declared covering rule
    [R]: the rules declared after it never change the answer, whether
    they are already loaded ([later]), replaced by others ([later']) or
    added by a further FORMAT directive ([line]). *)
Theorem first_declared_rule_wins
    sheet (cfg : gmap string (list format_config)) (row col : nat)
    earlier R later :
  cfg !! sheet = Some (earlier ++ R :: later) ->
  Forall (fun r => in_rectangle r (Z.of_nat row + 1) (Z.of_nat col + 1)
                   = false) earlier ->
  in_rectangle R (Z.of_nat row + 1) (Z.of_nat col + 1) = true ->
  check_cell_has_custom_format sheet cfg row col = (true, fc_format R)
  /\ (forall later',
        check_cell_has_custom_format
          sheet (<[sheet := earlier ++ R :: later']> cfg) row col
        = (true, fc_format R))
  /\ (forall line,
        check_cell_has_custom_format
          sheet (parse_format_configuration line cfg) row col
        = (true, fc_format R)).
Proof.
  intros Hcfg He HR. repeat split.
  - unfold check_cell_has_custom_format. rewrite Hcfg.
    apply first_covering_rule_hit; assumption.
  - intros later'. unfold check_cell_has_custom_format.
    rewrite lookup_insert_eq. apply first_covering_rule_hit; assumption.
  - intros line.
    destruct (parse_format_configuration_appends line cfg sheet)
      as [added Hadd].
    unfold sheet_rules in Hadd. rewrite Hcfg in Hadd. simpl in Hadd.
    unfold check_cell_has_custom_format.
    destruct (parse_format_configuration line cfg !! sheet)
      as [rules|] eqn:Hl; simpl in Hadd.
    + subst rules. rewrite <- app_assoc. simpl.
      apply first_covering_rule_hit; assumption.
    + destruct earlier; discriminate Hadd.
Qed.

(** Two overlapping rules on the cell in row 3, column 3. *)
Lemma first_declared_rule_wins_witness :
  in_rectangle (FormatConfig 1 1 5 5 "0.0") (Z.of_nat 2 + 1) (Z.of_nat 2 + 1)
  = true
  /\ check_cell_has_custom_format
       "load"
       {["load" := [FormatConfig 1 1 5 5 "0.0";
                    FormatConfig 2 2 9 9 "###,##0"]]} 2 2
     = (true, "0.0").
Proof.
  split; [reflexivity|].
  apply (first_declared_rule_wins
           "load"
           {["load" := [FormatConfig 1 1 5 5 "0.0";
                        FormatConfig 2 2 9 9 "###,##0"]]}
           2 2 [] (FormatConfig 1 1 5 5 "0.0")
           [FormatConfig 2 2 9 9 "###,##0"]).
  - reflexivity.
  - constructor.
  - reflexivity.
Defined.

(** ** Chart series *)

(** C2: every value-series rectangle of a chart rule, i.e. every
    sub-range [part] after the first that yields zero-based coordinates
    [(r1, c1, r2, c2)], contributes one series per column [c1 .. c2] and
    nothing else.  When [r1] is row 0 the series of a column is named by
    the cell in row 0 of that column and its values start at row 1;
    otherwise it has no name and its values span rows [r1 .. r2]. *)
Theorem series_per_spanned_column
    sheet c range_str num_rows first before part after r1 c1 r2 c2 :
  Py.split "/" range_str = first :: before ++ part :: after ->
  chart_range_part part num_rows = Some (r1, c1, r2, c2) ->
  let cat := chart_range_part first num_rows in
  exists block,
    ch_series (add_series_to_chart sheet c range_str num_rows)
    = (ch_series c ++ flat_map (series_of_part sheet num_rows cat) before)
      ++ block ++ flat_map (series_of_part sheet num_rows cat) after
    /\ length block = Z.to_nat (c2 - c1 + 1)
    /\ forall k : nat,
        (k < Z.to_nat (c2 - c1 + 1))%nat ->
        let col := c1 + Z.of_nat k in
        exists categories,
          block !! k
          = Some (SeriesConfig
                    (if r1 =? 0 then NameCell sheet 0 col else NameText "")
                    (CellRange sheet (if r1 =? 0 then 1 else r1) col r2 col)
                    categories).
Proof.
  intros Hs Hp cat.
  exists (add_data_series sheet r1 c1 r2 c2 cat). split; [|split].
  - rewrite (add_series_to_chart_series _ _ _ _ _ _ Hs).
    rewrite flat_map_app. simpl. unfold series_of_part at 2.
    rewrite Hp. rewrite <- !app_assoc. reflexivity.
  - apply add_data_series_length.
  - intros k Hk col. eexists.
    apply add_data_series_lookup. exact Hk.
Qed.

(** A rectangle over columns 2 and 3 from the header row down. *)
Lemma series_per_spanned_column_witness :
  chart_range_part "1.2:9.3" 9 = Some (0, 1, 8, 2)
  /\ exists block,
      ch_series (add_series_to_chart
                   "s" (Chart "line" true [] None None None false)
                   "2.1:9.1/1.2:9.3/2.5:9.5" 9)
      = ([] ++ flat_map (series_of_part "s" 9 (Some (1, 0, 8, 0))) [])
        ++ block
        ++ flat_map (series_of_part "s" 9 (Some (1, 0, 8, 0))) ["2.5:9.5"]
      /\ length block = 2%nat.
Proof.
  split; [reflexivity|].
  destruct (series_per_spanned_column
              "s" (Chart "line" true [] None None None false)
              "2.1:9.1/1.2:9.3/2.5:9.5" 9 "2.1:9.1" [] "1.2:9.3"
              ["2.5:9.5"] 0 1 8 2 eq_refl eq_refl)
    as (block & Hseries & Hlen & _).
  exists block. split; [exact Hseries | exact Hlen].
Defined.

(** ** Malformed sub-ranges *)

Section malformed_subranges.

Lemma series_of_part_malformed sheet num_rows cat range_part :
  malformed (chart_tokens range_part num_rows) ->
  series_of_part sheet num_rows cat range_part = [].
Proof.
  intros H. apply chart_range_part_malformed in H.
  unfold series_of_part. rewrite H. reflexivity.
Qed.

Lemma flat_map_drop {A B} (f : A -> list B) pre bad post :
  f bad = [] ->
  flat_map f (pre ++ bad :: post) = flat_map f pre ++ flat_map f post.
Proof. intros H. rewrite flat_map_app. simpl. rewrite H. reflexivity. Qed.

End malformed_subranges.

(** C8: in a range spec [s1/s2/.../sn], a sub-range that is not cut into
    exactly four integer tokens is dropped by itself.  For FORMAT rules
    the rectangles of the spec are those of the remaining sub-ranges, and
    a well-formed sub-range always gives its rectangle; for charts the
    series are those of the remaining sub-ranges after the first, and a
    well-formed sub-range always gives the series of its rectangle. *)
Theorem malformed_subrange_dropped_alone
    (pre post : list string) (bad : string) :
  Forall no_slash (pre ++ bad :: post) ->
  (forall format_str,
      malformed (format_tokens bad) ->
      parse_excel_cell_range (Py.join "/" (pre ++ bad :: post)) format_str
      = flat_map (fun p => parse_range_part p format_str) pre
        ++ flat_map (fun p => parse_range_part p format_str) post)
  /\ (forall p format_str t1 t2 t3 t4 r1 c1 r2 c2,
         format_tokens p = [t1; t2; t3; t4] ->
         Py.int t1 = Some r1 -> Py.int t2 = Some c1 ->
         Py.int t3 = Some r2 -> Py.int t4 = Some c2 ->
         parse_range_part p format_str
         = [FormatConfig r1 c1 r2 c2 format_str])
  /\ (forall sheet c num_rows first,
         no_slash first ->
         malformed (chart_tokens bad num_rows) ->
         let cat := chart_range_part first num_rows in
         ch_series (add_series_to_chart
                      sheet c (Py.join "/" (first :: pre ++ bad :: post))
                      num_rows)
         = ch_series c
           ++ flat_map (series_of_part sheet num_rows cat) pre
           ++ flat_map (series_of_part sheet num_rows cat) post)
  /\ (forall sheet num_rows cat p t1 t2 t3 t4 r1 c1 r2 c2,
         chart_tokens p num_rows = [t1; t2; t3; t4] ->
         Py.int t1 = Some r1 -> Py.int t2 = Some c1 ->
         Py.int t3 = Some r2 -> Py.int t4 = Some c2 ->
         series_of_part sheet num_rows cat p
         = add_data_series sheet (r1 - 1) (c1 - 1) (r2 - 1) (c2 - 1) cat).
Proof.
  intros Hall. repeat split.
  - intros format_str Hbad.
    rewrite parse_excel_cell_range_split, split_join.
    + apply flat_map_drop, parse_range_part_malformed, Hbad.
    + destruct pre; discriminate.
    + exact Hall.
  - intros. eapply parse_range_part_well_formed; eassumption.
  - intros sheet c num_rows first Hfirst Hbad cat.
    rewrite (add_series_to_chart_series
               sheet c _ num_rows first (pre ++ bad :: post)).
    + f_equal. apply flat_map_drop, series_of_part_malformed, Hbad.
    + apply split_join; [discriminate|]. constructor; assumption.
  - intros sheet num_rows cat p t1 t2 t3 t4 r1 c1 r2 c2 Ht H1 H2 H3 H4.
    unfold series_of_part.
    rewrite (chart_range_part_well_formed _ _ _ _ _ _ _ _ _ _ Ht H1 H2 H3 H4).
    reflexivity.
Qed.

(** A spec whose middle sub-range has three tokens, one not a number. *)
Lemma malformed_subrange_dropped_alone_witness :
  Forall no_slash (["1.2:5.4"] ++ "1.x:5" :: ["1.6:5.8"])
  /\ parse_excel_cell_range
       (Py.join "/" (["1.2:5.4"] ++ "1.x:5" :: ["1.6:5.8"])) "###,##0"
     = flat_map (fun p => parse_range_part p "###,##0") ["1.2:5.4"]
       ++ flat_map (fun p => parse_range_part p "###,##0") ["1.6:5.8"].
Proof.
  assert (H : Forall no_slash (["1.2:5.4"] ++ "1.x:5" :: ["1.6:5.8"])).
  { repeat constructor. }
  split; [exact H|].
  apply (proj1 (malformed_subrange_dropped_alone
                  ["1.2:5.4"] ["1.6:5.8"] "1.x:5" H)).
  left. vm_compute. lia.
Defined.



(** ** The to-end token *)

Section to_end_token.









End to_end_token.



(** ** Type inference *)

Section type_inference.
Import Py.
#[local] Arguments Re.lit_matches : simpl never.
#[local] Arguments Re.in_class : simpl never.
#[local] Arguments Ascii.eqb : simpl never.
#[local] Arguments is_digit : simpl never.
#[local] Arguments is_num_space : simpl never.

Lemma digit_props d :
  is_digit d = true ->
  is_num_space d = false /\ Ascii.eqb "," d = false
  /\ Ascii.eqb "_" d = false /\ is_underscore d = false
  /\ Ascii.eqb d "+" = false /\ Ascii.eqb d "-" = false.
Proof.
  intros H. apply is_digit_cases in H. simpl in H.
  repeat (destruct H as [<- | H]; [repeat split; reflexivity|]).
  destruct H.
Qed.

Lemma rstrip_with_keep p c s :
  p c = false -> rstrip_with p (String c s) = String c (rstrip_with p s).
Proof.
  intros Hc. simpl. destruct (rstrip_with p s); rewrite ?Hc; reflexivity.
Qed.

(** A text passing the date test starts with four digits and a dash. *)
Lemma is_date_string_shape text :
  is_date_string text = true ->
  exists d1 d2 d3 d4 rest,
    text = String d1 (String d2 (String d3 (String d4 (String "-" rest))))
    /\ is_digit d1 = true /\ is_digit d2 = true
    /\ is_digit d3 = true /\ is_digit d4 = true.
Proof.
  unfold is_date_string.
  destruct (String.eqb text "" || _); [discriminate|].
  intros H. apply bool_decide_eq_true in H. destruct H as [res H].
  destruct text as [|d1 [|d2 [|d3 [|d4 [|c rest]]]]];
    simpl in H; try discriminate;
    repeat match type of H with
           | context [Re.in_class Re.d ?x] =>
               let E := fresh "E" in
               destruct (Re.in_class Re.d x) eqn:E; simpl in H;
               try discriminate
           end.
  destruct (Re.lit_matches false "-" c) eqn:Ec; [|discriminate].
  apply Ascii.eqb_eq in Ec. subst c.
  exists d1, d2, d3, d4, rest. auto.
Qed.

(** Four digits and a dash never start a numeral. *)
Lemma float_parses_date_like d1 d2 d3 d4 rest :
  is_digit d1 = true -> is_digit d2 = true ->
  is_digit d3 = true -> is_digit d4 = true ->
  float_parses
    (String d1 (String d2 (String d3 (String d4 (String "-" rest)))))
  = false.
Proof.
  intros H1 H2 H3 H4. unfold float_parses.
  apply andb_false_iff. right.
  destruct (digit_props _ H1) as (S1 & _ & U1 & _ & P1 & M1).
  destruct (digit_props _ H2) as (S2 & _ & U2 & _).
  destruct (digit_props _ H3) as (S3 & _ & U3 & _).
  destruct (digit_props _ H4) as (S4 & _ & U4 & _).
  unfold remove_underscores. simpl replace.
  rewrite U1, U2, U3, U4.
  unfold strip_with. simpl lstrip_with. rewrite S1.
  rewrite !rstrip_with_keep by (assumption || reflexivity).
  unfold skip_decimal. simpl skip_sign. rewrite P1, M1. simpl.
  rewrite H1, H2, H3, H4. reflexivity.
Qed.

(** The two type tests never both pass. *)
Lemma date_not_numeric text :
  is_date_string text = true -> is_numeric_string text = false.
Proof.
  intros H. apply is_date_string_shape in H
    as (d1 & d2 & d3 & d4 & rest & -> & H1 & H2 & H3 & H4).
  unfold is_numeric_string. simpl String.eqb. cbv iota.
  destruct (digit_props _ H1) as (_ & C1 & _).
  destruct (digit_props _ H2) as (_ & C2 & _).
  destruct (digit_props _ H3) as (_ & C3 & _).
  destruct (digit_props _ H4) as (_ & C4 & _).
  simpl replace. rewrite C1, C2, C3, C4.
  apply float_parses_date_like; assumption.
Qed.


End type_inference.

(** ** The format cache *)

Section format_cache.








End format_cache.

(** ** Cell dispatch *)

Section cell_dispatch.




(** In column 0 a text passing the date test goes to the date writer,
    whatever the FORMAT rules say. *)
Lemma write_cell_value_date row value has key cache :
  is_date_string value = true ->
  write_cell_value row 0 value has key cache
  = write_date_value row 0 value.
Proof.
  intros Hd. pose proof (date_not_numeric _ Hd) as Hn.
  assert (Hne : String.eqb value "" = false).
  { destruct value; [discriminate Hd | reflexivity]. }
  unfold write_cell_value, write_cell_value_traced.
  rewrite Hne, Hn, Hd. simpl.
  destruct (if has then cache !! key else None); reflexivity.
Qed.

Lemma write_date_value_cases row col value :
  (has_time value = true /\
   exists dt, write_date_value row col value
              = write_datetime row col dt datetime_format)
  \/ (has_time value = false /\
      exists dt, write_date_value row col value
                 = write_datetime row col dt date_format)
  \/ write_date_value row col value
     = write_string row col value string_format.
Proof.
  unfold write_date_value.
  destruct (has_time value).
  - destruct (Strptime.strptime _ _); eauto.
  - destruct (Strptime.strptime _ _); eauto 6.
Qed.

End cell_dispatch.




(** C6: a column-0 text passing the date test is written by the date
    writer; whenever that writes a date value, it is a date with time
    exactly when the text is longer than 10 characters and does not end
    in the suffix [ 00:00:00], and a date only otherwise.  The four
    texts of the specification behave as it says. *)
Theorem date_with_time_classification :
  (forall row value has key cache,
      is_date_string value = true ->
      write_cell_value row 0 value has key cache
      = write_date_value row 0 value
      /\ forall dt f,
          write_date_value row 0 value = write_datetime row 0 dt f ->
          (f = datetime_format <->
           (10 < String.length value)%nat
           /\ Py.endswith " 00:00:00" value = false)
          /\ (f = date_format <->
              ~ ((10 < String.length value)%nat
                 /\ Py.endswith " 00:00:00" value = false)))
  /\ (forall row has key cache,
         write_cell_value row 0 "2021-01-26" has key cache
         = write_datetime row 0 (DateTime 2021 1 26 0 0 0) date_format
         /\ write_cell_value row 0 "2021-01-26 00:00:00" has key cache
            = write_datetime row 0 (DateTime 2021 1 26 0 0 0) date_format
         /\ write_cell_value row 0 "2021-01-26 19:30:00" has key cache
            = write_datetime row 0 (DateTime 2021 1 26 19 30 0)
                             datetime_format)
  /\ is_date_string "21-01-26" = false.
Proof.
  split; [|split].
  - intros row value has key cache Hd.
    split; [apply write_cell_value_date, Hd|].
    intros dt f Hw.
    assert (Hcond :
      has_time value = true <->
      (10 < String.length value)%nat
      /\ Py.endswith " 00:00:00" value = false).
    { unfold has_time. rewrite andb_true_iff, negb_true_iff, Nat.ltb_lt.
      reflexivity. }
    destruct (write_date_value_cases row 0 value)
      as [(Ht & dt' & Hw') | [(Ht & dt' & Hw') | Hw']];
      rewrite Hw' in Hw; [| |discriminate Hw];
      injection Hw as _ <-; rewrite <- Hcond, Ht;
      split; split; try reflexivity; try discriminate;
      intros H; exfalso; apply H; reflexivity.
  - intros row has key cache.
    rewrite !write_cell_value_date by reflexivity.
    repeat split; reflexivity.
  - reflexivity.
Qed.

(** A date with a time of day. *)
Lemma date_with_time_classification_witness :
  is_date_string "2021-01-26 19:30:00" = true
  /\ write_cell_value 4 0 "2021-01-26 19:30:00" false "" ∅
     = write_date_value 4 0 "2021-01-26 19:30:00".
Proof.
  split; [reflexivity|].
  exact (proj1 (proj1 date_with_time_classification
                      4%nat "2021-01-26 19:30:00" false "" ∅ eq_refl)).
Defined.

(** ** Numeric text *)




(** ** CHART directives *)

(** C7 (as stated, fails): no directive is accepted with anchorRow,
    anchorCol or chartType absent, so their defaults are never
    substituted: an accepted directive has at least 8 tokens. *)
Lemma chart_defaults_counterexample :
  ~ exists line sheet cc,
      chart_directive line = Some (sheet, cc)
      /\ (length (chart_fields line) <= 7)%nat.
Proof.
  intros (line & sheet & cc & H & Hlen).
  unfold chart_directive, chart_fields in *.
  destruct (Py.split_once "=" line !! 1%nat) as [after_eq|];
    cbn [mbind option_bind] in H; [|discriminate H].
  destruct (8 <=? length (Py.split "," after_eq))%nat eqn:E;
    [|discriminate H].
  apply Nat.leb_le in E. lia.
Qed.

(** C7 (amended): a CHART directive with fewer than 8 comma-separated
    tokens is ignored.  In an accepted directive anchorRow, anchorCol
    and chartType are therefore present and are read from tokens 5, 6
    and 7; xAxisFormat and xAxisTitle are tokens 9 and 10, or the empty
    text when absent. *)
Theorem chart_directive_fields :
  (forall line cfg,
      (length (chart_fields line) < 8)%nat ->
      parse_chart_configuration line cfg = cfg)
  /\ (forall line sheet cc,
         chart_directive line = Some (sheet, cc) ->
         let parts := chart_fields line in
         (8 <= length parts)%nat
         /\ parts !! 5%nat ≫= Py.int = Some (cc_position_row cc)
         /\ parts !! 6%nat ≫= Py.int = Some (cc_position_col cc)
         /\ parts !! 7%nat = Some (cc_chart_type cc)
         /\ cc_x_axis_format cc = default "" (parts !! 9%nat)
         /\ cc_x_axis_title cc = default "" (parts !! 10%nat)).
Proof.
  split.
  - intros line cfg Hlen.
    unfold parse_chart_configuration, chart_directive, chart_fields in *.
    destruct (Py.split_once "=" line !! 1%nat) as [after_eq|];
      cbn [mbind option_bind]; [|reflexivity].
    destruct (8 <=? length (Py.split "," after_eq))%nat eqn:E;
      [|reflexivity].
    apply Nat.leb_le in E. lia.
  - intros line sheet cc H parts. subst parts.
    unfold chart_directive, chart_fields in *.
    destruct (Py.split_once "=" line !! 1%nat) as [after_eq|];
      cbn [mbind option_bind] in H; [|discriminate H].
    destruct (Py.split "," after_eq)
      as [|p0 [|p1 [|p2 [|p3 [|p4 [|p5 [|p6 [|p7 rest]]]]]]]];
      try discriminate H.
    simpl in H.
    destruct (Py.int p5) as [row|] eqn:H5; [|discriminate H].
    destruct (Py.int p6) as [col|] eqn:H6; [|discriminate H].
    simpl in H. injection H as <- <-. simpl.
    repeat split; try assumption; try lia.
    + unfold item_or. simpl.
      destruct rest as [|p8 [|p9 rest]]; reflexivity.
    + unfold item_or. simpl.
      destruct rest as [|p8 [|p9 [|p10 rest]]]; reflexivity.
Qed.

(** A directive of five tokens. *)
Lemma chart_directive_fields_witness :
  (length (chart_fields "CHART1=load,[1.2:E.2/1.3:E.3],ACTIVE,load,Load")
   < 8)%nat
  /\ parse_chart_configuration
       "CHART1=load,[1.2:E.2/1.3:E.3],ACTIVE,load,Load" ∅ = ∅.
Proof.
  assert (H : (length (chart_fields
                         "CHART1=load,[1.2:E.2/1.3:E.3],ACTIVE,load,Load")
               < 8)%nat) by (vm_compute; lia).
  split; [exact H|].
  exact (proj1 chart_directive_fields
               "CHART1=load,[1.2:E.2/1.3:E.3],ACTIVE,load,Load" ∅ H).
Defined.

(** ** The chart scenario *)



